(** * The Gemini relay handler (api/gemini.js)

    A shallow embedding of the serverless handler of [api/gemini.js] and the
    properties of its request validation, payload construction and response
    reshaping.

    The handler is an [async] JavaScript function.  Its values are modelled by
    [JsVal] (JSON values and [undefined]); its effects (the reply written on
    [res], the outbound [fetch], [console.error], thrown exceptions) by the
    monad [M] over a [World]. *)

From Stdlib Require Import ZArith List String Ascii Bool Lia.
From Stdlib Require Import DecimalString.
Import ListNotations.

Local Open Scope string_scope.
Local Open Scope Z_scope.

(** ** JavaScript values *)

(** A JavaScript number: a double, written [mantissa * 2 ^ exponent] when it
    is finite.  Only its truthiness is observed by the handler. *)
Inductive JsNumber : Type :=
| NaN
| Infinity (negative : bool)
| Finite (mantissa exponent : Z).

#[local] Set Warnings "-register-all".

Inductive JsVal : Type :=
| JUndefined
| JNull
| JBool (b : bool)
| JNum (n : JsNumber)
| JStr (s : string)
| JArr (items : list JsVal)
| JObj (fields : list (string * JsVal)).

(** [ToBoolean]: [undefined], [null], [false], [0], [NaN] and [""] are falsy,
    every other value is truthy. *)
Definition number_truthy (n : JsNumber) : bool :=
  match n with
  | NaN => false
  | Infinity _ => true
  | Finite m _ => negb (m =? 0)
  end.

Definition truthy (v : JsVal) : bool :=
  match v with
  | JUndefined | JNull => false
  | JBool b => b
  | JNum n => number_truthy n
  | JStr s => negb (s =? "")%string
  | JArr _ | JObj _ => true
  end.

Definition nullish (v : JsVal) : bool :=
  match v with
  | JUndefined | JNull => true
  | _ => false
  end.

(** ** Property keys and property reads *)

(** A property key as the source writes it: a name ([.candidates]) or an
    index ([[0]]).  An index used on an object is the key of its decimal
    numeral. *)
Inductive Key : Type :=
| KName (name : string)
| KIndex (i : nat).

Definition key_string (k : Key) : string :=
  match k with
  | KName s => s
  | KIndex i => NilZero.string_of_uint (Nat.to_uint i)
  end.

Fixpoint lookup (k : string) (fields : list (string * JsVal)) : option JsVal :=
  match fields with
  | [] => None
  | (k', v) :: rest => if (k =? k')%string then Some v else lookup k rest
  end.

Definition has_key (k : string) (v : JsVal) : bool :=
  match v with
  | JObj fields => match lookup k fields with Some _ => true | None => false end
  | _ => false
  end.

Definition or_undefined (o : option JsVal) : JsVal :=
  match o with
  | Some v => v
  | None => JUndefined
  end.

(** [prop v k] is the value of [v[k]] for a [v] that is neither [null] nor
    [undefined]: own properties of objects, elements and [length] of arrays,
    characters and [length] of strings; every other read gives [undefined].
    (The names the handler reads are none of the inherited ones.) *)
Definition prop (v : JsVal) (k : Key) : JsVal :=
  match v with
  | JObj fields => or_undefined (lookup (key_string k) fields)
  | JArr items =>
      match k with
      | KIndex i => or_undefined (nth_error items i)
      | KName name =>
          if (name =? "length")%string
          then JNum (Finite (Z.of_nat (List.length items)) 0)
          else JUndefined
      end
  | JStr s =>
      match k with
      | KIndex i =>
          match String.get i s with
          | Some c => JStr (String c EmptyString)
          | None => JUndefined
          end
      | KName name =>
          if (name =? "length")%string
          then JNum (Finite (Z.of_nat (String.length s)) 0)
          else JUndefined
      end
  | _ => JUndefined
  end.

(** [payload.k = v]: replaces the property in place or appends it. *)
Fixpoint set_field (k : string) (v : JsVal) (fields : list (string * JsVal))
  : list (string * JsVal) :=
  match fields with
  | [] => [(k, v)]
  | (k', v') :: rest =>
      if (k =? k')%string then (k, v) :: rest else (k', v') :: set_field k v rest
  end.

Definition set_prop (o : JsVal) (k : string) (v : JsVal) : JsVal :=
  match o with
  | JObj fields => JObj (set_field k v fields)
  | _ => o
  end.

(** ** Exceptions *)

(** A thrown [Error]: its class name and its [message]. *)
Record Exn : Type := mkExn { exn_name : string; message : string }.

(** The faults the language itself raises in the handler.  The wording of
    their messages belongs to the JavaScript engine. *)
Inductive Fault : Type :=
| ReadOfNullish (base : JsVal) (k : Key)
| NotAFunction (callee : JsVal) (k : Key)
| DestructureNullish (base : JsVal).

(** [Exc A]: an expression that evaluates to an [A] or throws. *)
Definition Exc (A : Type) : Type := (Exn + A)%type.

Definition exc_bind {A B : Type} (e : Exc A) (k : A -> Exc B) : Exc B :=
  match e with
  | inl x => inl x
  | inr a => k a
  end.

Notation "'let*' x ':=' e 'in' k" := (exc_bind e (fun x => k))
  (at level 10, x name, e at level 100, k at level 200).

Fixpoint exc_map {A B : Type} (f : A -> Exc B) (l : list A) : Exc (list B) :=
  match l with
  | [] => inr []
  | a :: rest =>
      let* b := f a in
      let* bs := exc_map f rest in
      inr (b :: bs)
  end.

Fixpoint exc_filter {A : Type} (f : A -> Exc JsVal) (l : list A) : Exc (list A) :=
  match l with
  | [] => inr []
  | a :: rest =>
      let* keep := f a in
      let* kept := exc_filter f rest in
      inr (if truthy keep then a :: kept else kept)
  end.

(** ** The outside world: the provider, the reply, the console *)

(** The arguments of the one [fetch] call.  [init_body] is the payload handed
    to [JSON.stringify]. *)
Record FetchRequest : Type := mkFetchRequest {
  url : string;
  init_method : string;
  init_headers : list (string * string);
  init_body : JsVal
}.

(** What [fetch] resolves to: the status line and what the body readers
    [text()] and [json()] resolve to ([json()] rejects on a body that is not
    JSON). *)
Record Response : Type := mkResponse {
  status : Z;
  text : Exc string;
  json : Exc JsVal
}.

(** [Response.ok]: the status is in the range 200-299. *)
Definition ok (r : Response) : bool :=
  (200 <=? status r) && (status r <=? 299).

(** The inbound request as the handler reads it. *)
Record Request : Type := mkRequest {
  method : string;
  body : JsVal
}.

Inductive LogArg : Type :=
| LogStr (s : string)
| LogVal (v : JsVal)
| LogExn (e : Exn).

(** What one invocation leaves behind: the reply sent through
    [res.status(..).json(..)], the outbound calls, the [console.error] lines. *)
Record World : Type := mkWorld {
  reply : option (Z * JsVal);
  calls : list FetchRequest;
  console : list (string * LogArg)
}.

Definition initial_world : World :=
  {| reply := None; calls := []; console := [] |}.

(** What the handler runs against: the engine's messages, the process
    environment and the provider behind [fetch]. *)
Record Host : Type := mkHost {
  type_error_message : Fault -> string;
  GEMINI_API_KEY : option string;
  fetch : FetchRequest -> Exc Response
}.

(** ** Effectful computations *)

Definition M (A : Type) : Type := World -> Exc A * World.

Definition ret {A : Type} (a : A) : M A := fun w => (inr a, w).

Definition bind {A B : Type} (m : M A) (k : A -> M B) : M B :=
  fun w =>
    match m w with
    | (inl e, w') => (inl e, w')
    | (inr a, w') => k a w'
    end.

Notation "x <- m ;; k" := (bind m (fun x => k))
  (at level 100, m at next level, right associativity).
Notation "m ;;; k" := (bind m (fun _ => k))
  (at level 100, right associativity).

Definition lift {A : Type} (e : Exc A) : M A := fun w => (e, w).

Definition try_catch {A : Type} (block : M A) (handle : Exn -> M A) : M A :=
  fun w =>
    match block w with
    | (inl e, w') => handle e w'
    | (inr a, w') => (inr a, w')
    end.

(** [res.status(code).json(body)] *)
Definition res_status_json (code : Z) (b : JsVal) : M unit :=
  fun w => (inr tt, {| reply := Some (code, b); calls := calls w; console := console w |}).

(** [console.error(label, arg)] *)
Definition console_error (label : string) (arg : LogArg) : M unit :=
  fun w => (inr tt, {| reply := reply w; calls := calls w;
                       console := console w ++ [(label, arg)] |}).

(** ** The handler *)

Section Handler.

Variable host : Host.

Definition throw_type_error {A : Type} (f : Fault) : Exc A :=
  inl {| exn_name := "TypeError"; message := type_error_message host f |}.

(** [v.k] and [v[i]]: a [TypeError] on [null] and [undefined]. *)
Definition get (v : JsVal) (k : Key) : Exc JsVal :=
  if nullish v then throw_type_error (ReadOfNullish v k) else inr (prop v k).

(** [v?.k] and [v?.[i]]: [undefined] on [null] and [undefined]. *)
Definition opt_get (v : JsVal) (k : Key) : JsVal :=
  if nullish v then JUndefined else prop v k.

(** [a && b], with [b] evaluated only when [a] is truthy. *)
Definition js_and (a : JsVal) (b : Exc JsVal) : Exc JsVal :=
  if truthy a then b else inr a.

(** [const { userQuery, systemPrompt, useGrounding } = v] *)
Definition destructure (v : JsVal) : Exc (JsVal * JsVal * JsVal) :=
  if nullish v then throw_type_error (DestructureNullish v)
  else inr (prop v (KName "userQuery"),
            prop v (KName "systemPrompt"),
            prop v (KName "useGrounding")).

(** [v.map(f)]: [Array.prototype.map] on an array; a parsed value of any
    other kind has no callable [map]. *)
Definition call_map (v : JsVal) (f : JsVal -> Exc JsVal) : Exc (list JsVal) :=
  match v with
  | JArr items => exc_map f items
  | JUndefined | JNull => throw_type_error (ReadOfNullish v (KName "map"))
  | _ => throw_type_error (NotAFunction v (KName "map"))
  end.

(** [!apiKey] on a value of [process.env]. *)
Definition env_truthy (o : option string) : bool :=
  match o with
  | Some s => negb (s =? "")%string
  | None => false
  end.

Definition env_string (o : option string) : string :=
  match o with
  | Some s => s
  | None => "undefined"
  end.

Definition error_body (msg : string) : JsVal := JObj [("error", JStr msg)].

(** Step 4: the payload sent to the provider. *)
Definition build_payload (userQuery systemPrompt useGrounding : JsVal) : JsVal :=
  let payload :=
    JObj [("contents", JArr [JObj [("parts", JArr [JObj [("text", userQuery)]])]])] in
  let payload :=
    if truthy useGrounding
    then set_prop payload "tools" (JArr [JObj [("google_search", JObj [])]])
    else payload in
  let payload :=
    if truthy systemPrompt
    then set_prop payload "systemInstruction"
           (JObj [("parts", JArr [JObj [("text", systemPrompt)]])])
    else payload in
  payload.

(** [attribution => ({ uri: attribution.web?.uri, title: attribution.web?.title })] *)
Definition to_source (attribution : JsVal) : Exc JsVal :=
  let* web := get attribution (KName "web") in
  let uri := opt_get web (KName "uri") in
  let* web := get attribution (KName "web") in
  let title := opt_get web (KName "title") in
  inr (JObj [("uri", uri); ("title", title)]).

(** [source => source.uri && source.title] *)
Definition is_complete (source : JsVal) : Exc JsVal :=
  let* uri := get source (KName "uri") in
  js_and uri (get source (KName "title")).

(** Lines 73-82: the [sources] of a candidate. *)
Definition extract_sources (candidate : JsVal) : Exc JsVal :=
  let sources := JArr [] in
  let* groundingMetadata := get candidate (KName "groundingMetadata") in
  let* has := js_and groundingMetadata
                (get groundingMetadata (KName "groundingAttributions")) in
  if truthy has then
    let* attributions := get groundingMetadata (KName "groundingAttributions") in
    let* mapped := call_map attributions to_source in
    let* kept := exc_filter is_complete mapped in
    inr (JArr kept)
  else inr sources.

(** [result.candidates?.[0]] *)
Definition first_candidate (result : JsVal) : Exc JsVal :=
  let* candidates := get result (KName "candidates") in
  inr (opt_get candidates (KIndex 0)).

(** [candidate && candidate.content?.parts?.[0]?.text] *)
Definition candidate_text_test (candidate : JsVal) : Exc JsVal :=
  js_and candidate
    (let* content := get candidate (KName "content") in
     inr (opt_get (opt_get (opt_get content (KName "parts")) (KIndex 0)) (KName "text"))).

(** [candidate.content.parts[0].text] *)
Definition candidate_text (candidate : JsVal) : Exc JsVal :=
  let* content := get candidate (KName "content") in
  let* parts := get content (KName "parts") in
  let* part := get parts (KIndex 0) in
  get part (KName "text").

Definition googleApiUrl (apiKey : option string) : string :=
  "https://generativelanguage.googleapis.com/v1beta/models/gemini-2.5-flash-preview-09-2025:generateContent?key="
  ++ env_string apiKey.

(** [await fetch(url, init)]: the call is recorded, then resolves or rejects. *)
Definition do_fetch (rq : FetchRequest) : M Response :=
  fun w => (fetch host rq,
            {| reply := reply w; calls := calls w ++ [rq]; console := console w |}).

(** Step 6: reshape a success body. *)
Definition reshape (result : JsVal) : M unit :=
  candidate <- lift (first_candidate result) ;;
  test <- lift (candidate_text_test candidate) ;;
  if truthy test then
    text <- lift (candidate_text candidate) ;;
    sources <- lift (extract_sources candidate) ;;
    res_status_json 200 (JObj [("text", text); ("sources", sources)])
  else
    console_error "Invalid Google API response structure:" (LogVal result) ;;;
    res_status_json 500 (error_body "The API returned an unexpected response.").

(** Step 5: the provider call and what is made of its answer. *)
Definition call_provider (apiKey : option string) (payload : JsVal) : M unit :=
  try_catch
    (googleResponse <-
       do_fetch {| url := googleApiUrl apiKey;
                   init_method := "POST";
                   init_headers := [("Content-Type", "application/json")];
                   init_body := payload |} ;;
     if negb (ok googleResponse) then
       errorBody <- lift (text googleResponse) ;;
       console_error "Google API Error:" (LogStr errorBody) ;;;
       res_status_json (status googleResponse)
         (error_body ("Google API Error: " ++ errorBody))
     else
       result <- lift (json googleResponse) ;;
       reshape result)
    (fun error =>
       console_error "Server-side fetch error:" (LogExn error) ;;;
       res_status_json 500 (error_body ("Server error: " ++ message error))).

Definition handler (req : Request) : M unit :=
  if negb (method req =? "POST")%string then
    res_status_json 405 (error_body "Method Not Allowed")
  else
    let apiKey := GEMINI_API_KEY host in
    if negb (env_truthy apiKey) then
      res_status_json 500 (error_body "API key is not configured on the server.")
    else
      fields <- lift (destructure (body req)) ;;
      let '(userQuery, systemPrompt, useGrounding) := fields in
      if negb (truthy userQuery) then
        res_status_json 400 (error_body "userQuery is required.")
      else
        call_provider apiKey (build_payload userQuery systemPrompt useGrounding).

(** One invocation, from a fresh [res]: what the returned promise settles
    to ([inl e]: rejected with [e]) and what it left in the world. *)
Definition run (req : Request) : Exc unit * World :=
  handler req initial_world.

End Handler.

(** ** Vocabulary of the specification *)

(** The fetch call the handler issues for a request that passes validation. *)
Definition outbound (host : Host) (req : Request) : FetchRequest :=
  {| url := googleApiUrl (GEMINI_API_KEY host);
     init_method := "POST";
     init_headers := [("Content-Type", "application/json")];
     init_body := build_payload (prop (body req) (KName "userQuery"))
                                (prop (body req) (KName "systemPrompt"))
                                (prop (body req) (KName "useGrounding")) |}.

(** The world once [fetch] has been called. *)
Definition called (host : Host) (req : Request) : World :=
  {| reply := None; calls := [outbound host req]; console := [] |}.

(** The [catch] block. *)
Definition caught (error : Exn) (w : World) : Exc unit * World :=
  (inr tt, {| reply := Some (500, error_body ("Server error: " ++ message error));
              calls := calls w;
              console := console w ++ [("Server-side fetch error:", LogExn error)] |}).

(** What the success branch leaves in the world. *)
Definition answered (w : World) (t sources : JsVal) : World :=
  {| reply := Some (200, JObj [("text", t); ("sources", sources)]);
     calls := calls w;
     console := console w |}.

Definition unexpected (w : World) (result : JsVal) : World :=
  {| reply := Some (500, error_body "The API returned an unexpected response.");
     calls := calls w;
     console := console w ++ [("Invalid Google API response structure:", LogVal result)] |}.

(** The three validation stages, in the order of the specification. *)
Inductive Check : Type :=
| MethodCheck
| ConfigurationCheck
| RequiredFieldCheck.

(** The required field is missing when the body is absent or its [userQuery]
    is absent or empty. *)
Definition userQuery_missing (req : Request) : bool :=
  nullish (body req) || negb (truthy (prop (body req) (KName "userQuery"))).

(** The first stage a request fails, if any. *)
Definition first_failure (host : Host) (req : Request) : option Check :=
  if negb (method req =? "POST")%string then Some MethodCheck
  else if negb (env_truthy (GEMINI_API_KEY host)) then Some ConfigurationCheck
  else if userQuery_missing req then Some RequiredFieldCheck
  else None.

(** The response that reflects a failed stage. *)
Definition rejection (c : Check) : Z * JsVal :=
  match c with
  | MethodCheck => (405, error_body "Method Not Allowed")
  | ConfigurationCheck => (500, error_body "API key is not configured on the server.")
  | RequiredFieldCheck => (400, error_body "userQuery is required.")
  end.

(** A structural path is present in a value when every step but the last
    lands on a value that has properties and the last one on a value other
    than [undefined]. *)
Definition present (v : JsVal) : option JsVal :=
  match v with
  | JUndefined => None
  | _ => Some v
  end.

Fixpoint path_lookup (v : JsVal) (path : list Key) : option JsVal :=
  match path with
  | [] => present v
  | k :: rest => if nullish v then None else path_lookup (prop v k) rest
  end.

(** [candidates[0].content.parts[0].text] *)
Definition text_path : list Key :=
  [KName "candidates"; KIndex 0; KName "content"; KName "parts"; KIndex 0; KName "text"].

Definition text_at_path (result : JsVal) : option JsVal :=
  path_lookup result text_path.

(** [candidates[0]] *)
Definition candidate_of (result : JsVal) : JsVal :=
  opt_get (opt_get result (KName "candidates")) (KIndex 0).

(** The web citation of a grounding attribution, as [{uri, title}]. *)
Definition web_citation (attribution : JsVal) : JsVal :=
  let web := prop attribution (KName "web") in
  JObj [("uri", opt_get web (KName "uri")); ("title", opt_get web (KName "title"))].

(** An entry has a field when the field is truthy. *)
Definition has_uri (source : JsVal) : bool := truthy (prop source (KName "uri")).
Definition has_title (source : JsVal) : bool := truthy (prop source (KName "title")).
Definition complete (source : JsVal) : bool := has_uri source && has_title source.

(** The grounding attributions of a candidate: [undefined] when the candidate
    carries no grounding metadata. *)
Definition attributions_of (candidate : JsVal) : JsVal :=
  opt_get (opt_get candidate (KName "groundingMetadata")) (KName "groundingAttributions").

(** A list of attribution records: no [null] and no [undefined] among them. *)
Definition attribution_records (l : list JsVal) : bool :=
  forallb (fun a => negb (nullish a)) l.

(** The attributions can be mapped: there are none (no grounding metadata, or
    a falsy attribution field), or they are an array of records. *)
Definition attributions_usable (candidate : JsVal) : bool :=
  match attributions_of candidate with
  | JArr l => attribution_records l
  | v => negb (truthy v)
  end.

(** The replies an invocation can leave behind: none, a rejection of the
    request, the relayed provider error, the two fixed-status errors, or the
    full [{text, sources}] answer. *)
Inductive Emitted : option (Z * JsVal) -> Prop :=
| emitted_nothing : Emitted None
| emitted_rejection (c : Check) : Emitted (Some (rejection c))
| emitted_server_error (m : string) :
    Emitted (Some (500, error_body ("Server error: " ++ m)))
| emitted_provider_error (code : Z) (raw : string) :
    (200 <=? code) && (code <=? 299) = false ->
    Emitted (Some (code, error_body ("Google API Error: " ++ raw)))
| emitted_unexpected :
    Emitted (Some (500, error_body "The API returned an unexpected response."))
| emitted_answer (t : JsVal) (l : list JsVal) :
    truthy t = true ->
    (forall s, In s l -> complete s = true) ->
    Emitted (Some (200, JObj [("text", t); ("sources", JArr l)])).

(** What one invocation comes to, path by path through the handler: what the
    promise settles to and the world it leaves. *)
Inductive Outcome (host : Host) (req : Request) : Exc unit * World -> Prop :=
| out_rejected (c : Check) :
    first_failure host req = Some c ->
    nullish (body req) = false \/ c <> RequiredFieldCheck ->
    Outcome host req
      (inr tt, {| reply := Some (rejection c); calls := []; console := [] |})
| out_escaped :
    first_failure host req = Some RequiredFieldCheck ->
    nullish (body req) = true ->
    Outcome host req
      (inl {| exn_name := "TypeError";
              message := type_error_message host (DestructureNullish (body req)) |},
       initial_world)
| out_fetch_failed (e : Exn) :
    first_failure host req = None ->
    fetch host (outbound host req) = inl e ->
    Outcome host req (caught e (called host req))
| out_text_failed (r : Response) (e : Exn) :
    first_failure host req = None ->
    fetch host (outbound host req) = inr r ->
    ok r = false ->
    text r = inl e ->
    Outcome host req (caught e (called host req))
| out_provider_error (r : Response) (raw : string) :
    first_failure host req = None ->
    fetch host (outbound host req) = inr r ->
    ok r = false ->
    text r = inr raw ->
    Outcome host req
      (inr tt, {| reply := Some (status r, error_body ("Google API Error: " ++ raw));
                  calls := [outbound host req];
                  console := [("Google API Error:", LogStr raw)] |})
| out_json_failed (r : Response) (e : Exn) :
    first_failure host req = None ->
    fetch host (outbound host req) = inr r ->
    ok r = true ->
    json r = inl e ->
    Outcome host req (caught e (called host req))
| out_null_result (r : Response) (result : JsVal) :
    first_failure host req = None ->
    fetch host (outbound host req) = inr r ->
    ok r = true ->
    json r = inr result ->
    nullish result = true ->
    Outcome host req
      (caught {| exn_name := "TypeError";
                 message := type_error_message host
                              (ReadOfNullish result (KName "candidates")) |}
         (called host req))
| out_unexpected (r : Response) (result : JsVal) :
    first_failure host req = None ->
    fetch host (outbound host req) = inr r ->
    ok r = true ->
    json r = inr result ->
    nullish result = false ->
    (forall t, text_at_path result = Some t -> truthy t = false) ->
    Outcome host req (inr tt, unexpected (called host req) result)
| out_sources_failed (r : Response) (result t : JsVal) (e : Exn) :
    first_failure host req = None ->
    fetch host (outbound host req) = inr r ->
    ok r = true ->
    json r = inr result ->
    text_at_path result = Some t ->
    truthy t = true ->
    attributions_usable (candidate_of result) = false ->
    Outcome host req (caught e (called host req))
| out_answered (r : Response) (result t : JsVal) (l : list JsVal) :
    first_failure host req = None ->
    fetch host (outbound host req) = inr r ->
    ok r = true ->
    json r = inr result ->
    text_at_path result = Some t ->
    truthy t = true ->
    attributions_usable (candidate_of result) = true ->
    (forall s, In s l -> complete s = true) ->
    Outcome host req (inr tt, answered (called host req) t (JArr l)).

(** ** Sample hosts and requests *)

(** The messages of V8, the engine of Node.js. *)
Definition nullish_name (v : JsVal) : string :=
  match v with
  | JNull => "null"
  | _ => "undefined"
  end.

Definition v8_message (f : Fault) : string :=
  match f with
  | ReadOfNullish base k =>
      "Cannot read properties of " ++ nullish_name base
      ++ " (reading '" ++ key_string k ++ "')"
  | NotAFunction _ k => key_string k ++ " is not a function"
  | DestructureNullish base =>
      "Cannot destructure property 'userQuery' of 'req.body' as it is "
      ++ nullish_name base ++ "."
  end.

(** A host whose provider answers every call with [r]. *)
Definition host_answering (key : option string) (r : Response) : Host :=
  {| type_error_message := v8_message;
     GEMINI_API_KEY := key;
     fetch := fun _ => inr r |}.

(** A host whose [fetch] rejects. *)
Definition host_offline (key : option string) : Host :=
  {| type_error_message := v8_message;
     GEMINI_API_KEY := key;
     fetch := fun _ => inl {| exn_name := "TypeError"; message := "fetch failed" |} |}.

(** A provider response whose body is JSON text that parses to [v]; the text
    itself is not spelled out. *)
Definition json_response (code : Z) (v : JsVal) : Response :=
  {| status := code; text := inr ""; json := inr v |}.

(** A provider response whose body is not JSON. *)
Definition text_response (code : Z) (raw : string) : Response :=
  {| status := code;
     text := inr raw;
     json := inl {| exn_name := "SyntaxError";
                    message := "Unexpected token in JSON at position 0" |} |}.

Definition post (b : JsVal) : Request := {| method := "POST"; body := b |}.

Definition hello : JsVal := JObj [("userQuery", JStr "hello")].

(** [{candidates: [{content: {parts: [{text: t}]}, ...extra}]}] *)
Definition answer (t : JsVal) (extra : list (string * JsVal)) : JsVal :=
  JObj [("candidates",
         JArr [JObj (("content", JObj [("parts", JArr [JObj [("text", t)]])]) :: extra)])].

Definition grounded (attributions : JsVal) : list (string * JsVal) :=
  [("groundingMetadata", JObj [("groundingAttributions", attributions)])].

Definition web (fields : list (string * JsVal)) : JsVal :=
  JObj [("web", JObj fields)].

(** * Properties *)

(** ** Running the handler, stage by stage *)

Lemma first_failure_none (host : Host) (req : Request) :
  first_failure host req = None ->
  (method req =? "POST")%string = true
  /\ env_truthy (GEMINI_API_KEY host) = true
  /\ nullish (body req) = false
  /\ truthy (prop (body req) (KName "userQuery")) = true.
Proof.
  unfold first_failure, userQuery_missing.
  destruct (method req =? "POST")%string; simpl; [|discriminate].
  destruct (env_truthy (GEMINI_API_KEY host)); simpl; [|discriminate].
  destruct (nullish (body req)); simpl; [discriminate|].
  destruct (truthy (prop (body req) (KName "userQuery"))); simpl; [|discriminate].
  auto.
Qed.

(** A request that passes validation reaches the provider call with the
    payload of [outbound]. *)
Lemma run_accepted (host : Host) (req : Request) :
  first_failure host req = None ->
  run host req =
  call_provider host (GEMINI_API_KEY host) (init_body (outbound host req)) initial_world.
Proof.
  intros H. destruct (first_failure_none host req H) as (Hm & Hk & Hb & Hq).
  unfold run, handler. rewrite Hm, Hk. simpl negb. cbv iota.
  unfold bind, lift, destructure. rewrite Hb, Hq. reflexivity.
Qed.

(** A request that fails validation stops before the provider call. *)
Lemma run_rejected (host : Host) (req : Request) (c : Check) :
  first_failure host req = Some c ->
  calls (snd (run host req)) = []
  /\ (nullish (body req) = false \/ c <> RequiredFieldCheck ->
      run host req =
      (inr tt, {| reply := Some (rejection c); calls := []; console := [] |})).
Proof.
  unfold first_failure, userQuery_missing, run, handler.
  destruct (method req =? "POST")%string; simpl negb; cbv iota.
  2:{ intros [= <-]. split; [reflexivity | intros _; reflexivity]. }
  destruct (env_truthy (GEMINI_API_KEY host)); simpl negb; cbv iota.
  2:{ intros [= <-]. split; [reflexivity | intros _; reflexivity]. }
  unfold bind, lift, destructure.
  destruct (nullish (body req)) eqn:Hb; simpl.
  - intros [= <-]. split; [reflexivity|]. intros [Hn | Hn]; [discriminate | congruence].
  - destruct (truthy (prop (body req) (KName "userQuery"))); simpl; [discriminate|].
    intros [= <-]. split; [reflexivity | intros _; reflexivity].
Qed.

Lemma run_fetch_rejects (host : Host) (req : Request) (e : Exn) :
  first_failure host req = None ->
  fetch host (outbound host req) = inl e ->
  run host req = caught e (called host req).
Proof.
  intros H Hf. rewrite (run_accepted host req H).
  unfold call_provider, try_catch, bind, do_fetch. simpl.
  unfold outbound in Hf. simpl in Hf. rewrite Hf. reflexivity.
Qed.

Lemma run_provider_error (host : Host) (req : Request) (r : Response) :
  first_failure host req = None ->
  fetch host (outbound host req) = inr r ->
  ok r = false ->
  run host req =
  match text r with
  | inl e => caught e (called host req)
  | inr errorBody =>
      (inr tt, {| reply := Some (status r, error_body ("Google API Error: " ++ errorBody));
                  calls := [outbound host req];
                  console := [("Google API Error:", LogStr errorBody)] |})
  end.
Proof.
  intros H Hf Hok. rewrite (run_accepted host req H).
  unfold call_provider, try_catch, bind, do_fetch. simpl.
  unfold outbound in Hf. simpl in Hf. rewrite Hf, Hok. simpl.
  unfold lift. destruct (text r); reflexivity.
Qed.

Lemma run_provider_success (host : Host) (req : Request) (r : Response) :
  first_failure host req = None ->
  fetch host (outbound host req) = inr r ->
  ok r = true ->
  run host req =
  match json r with
  | inl e => caught e (called host req)
  | inr result =>
      match reshape host result (called host req) with
      | (inl e, w) => caught e w
      | (inr u, w) => (inr u, w)
      end
  end.
Proof.
  intros H Hf Hok. rewrite (run_accepted host req H).
  unfold call_provider, try_catch, bind, do_fetch. simpl.
  unfold outbound in Hf. simpl in Hf. rewrite Hf, Hok. simpl.
  unfold lift. destruct (json r); reflexivity.
Qed.

(** ** Property reads *)

Lemma truthy_not_nullish (v : JsVal) : truthy v = true -> nullish v = false.
Proof. destruct v; simpl; congruence. Qed.

Lemma opt_get_not_nullish (v : JsVal) (k : Key) :
  nullish (opt_get v k) = false -> nullish v = false.
Proof. unfold opt_get. destruct (nullish v); simpl; congruence. Qed.

Lemma opt_get_prop (v : JsVal) (k : Key) :
  nullish v = false -> opt_get v k = prop v k.
Proof. unfold opt_get. intros ->. reflexivity. Qed.

Lemma get_prop (host : Host) (v : JsVal) (k : Key) :
  nullish v = false -> get host v k = inr (prop v k).
Proof. unfold get. intros ->. reflexivity. Qed.

Lemma get_nullish (host : Host) (v : JsVal) (k : Key) :
  nullish v = true -> exists e, get host v k = inl e.
Proof. unfold get. intros ->. eexists. reflexivity. Qed.

(** A falsy value has none of the properties the handler names. *)
Lemma falsy_opt_get (v : JsVal) (name : string) :
  truthy v = false -> (name =? "length")%string = false ->
  opt_get v (KName name) = JUndefined.
Proof.
  intros Hv Hn. unfold opt_get.
  destruct v; simpl in *; try reflexivity; try discriminate.
  rewrite Hn. reflexivity.
Qed.

Lemma fold_opt_get_undefined (path : list Key) :
  fold_left opt_get path JUndefined = JUndefined.
Proof. induction path as [|k path IH]; simpl; auto. Qed.

(** The optional chain along a path finds exactly what is present there. *)
Lemma path_lookup_chain (path : list Key) (v : JsVal) :
  path_lookup v path = present (fold_left opt_get path v).
Proof.
  revert v. induction path as [|k path IH]; intros v; simpl; [reflexivity|].
  unfold opt_get at 2. destruct (nullish v).
  - rewrite fold_opt_get_undefined. reflexivity.
  - apply IH.
Qed.

Lemma present_truthy (v : JsVal) : truthy v = true -> present v = Some v.
Proof. destruct v; simpl; congruence. Qed.

Lemma present_some (v t : JsVal) : present v = Some t -> v = t.
Proof. destruct v; simpl; congruence. Qed.

(** ** Step 6, the text *)

(** What the test of line 70 evaluates to: the optional chain along
    [text_path] when that is truthy, a falsy value otherwise. *)
Lemma candidate_text_test_chain (host : Host) (result : JsVal) :
  nullish result = false ->
  exists v,
    candidate_text_test host (candidate_of result) = inr v
    /\ truthy v = truthy (fold_left opt_get text_path result)
    /\ (truthy v = true -> v = fold_left opt_get text_path result).
Proof.
  intros Hr. unfold candidate_text_test, js_and, text_path. simpl fold_left.
  fold (candidate_of result).
  destruct (truthy (candidate_of result)) eqn:Hc.
  - rewrite (get_prop host _ _ (truthy_not_nullish _ Hc)). simpl.
    rewrite (opt_get_prop (candidate_of result) _ (truthy_not_nullish _ Hc)).
    eexists. split; [reflexivity|]. split; reflexivity.
  - exists (candidate_of result). split; [reflexivity|].
    rewrite (falsy_opt_get (candidate_of result) "content" Hc eq_refl).
    unfold opt_get. simpl. split; [assumption | congruence].
Qed.

(** Once the test has passed, line 71 reads the same value without fault. *)
Lemma candidate_text_chain (host : Host) (result : JsVal) :
  truthy (fold_left opt_get text_path result) = true ->
  candidate_text host (candidate_of result) = inr (fold_left opt_get text_path result).
Proof.
  unfold text_path. simpl fold_left. fold (candidate_of result). intros Ht.
  pose proof (truthy_not_nullish _ Ht) as H4.
  pose proof (opt_get_not_nullish _ _ H4) as H3.
  pose proof (opt_get_not_nullish _ _ H3) as H2.
  pose proof (opt_get_not_nullish _ _ H2) as H1.
  pose proof (opt_get_not_nullish _ _ H1) as H0.
  unfold candidate_text.
  rewrite (get_prop host _ _ H0). simpl.
  rewrite (opt_get_prop _ (KName "content") H0) in *.
  rewrite (get_prop host _ _ H1). simpl.
  rewrite (opt_get_prop _ (KName "parts") H1) in *.
  rewrite (get_prop host _ _ H2). simpl.
  rewrite (opt_get_prop _ (KIndex 0) H2) in *.
  rewrite (get_prop host _ _ H3).
  rewrite (opt_get_prop _ (KName "text") H3). reflexivity.
Qed.

(** The success branch, decided by the optional chain along [text_path]. *)
Lemma reshape_chain (host : Host) (result : JsVal) (w : World) :
  nullish result = false ->
  reshape host result w =
  let t := fold_left opt_get text_path result in
  if truthy t then
    match extract_sources host (candidate_of result) with
    | inl e => (inl e, w)
    | inr sources => (inr tt, answered w t sources)
    end
  else (inr tt, unexpected w result).
Proof.
  intros Hr. cbv zeta.
  destruct (candidate_text_test_chain host result Hr) as (v & Hv & Htr & Heq).
  unfold reshape, bind, lift, first_candidate.
  rewrite (get_prop host _ _ Hr). simpl exc_bind.
  rewrite <- (opt_get_prop result (KName "candidates") Hr).
  fold (candidate_of result). rewrite Hv, Htr.
  destruct (truthy (fold_left opt_get text_path result)) eqn:Ht.
  - rewrite (candidate_text_chain host result Ht).
    destruct (extract_sources host (candidate_of result)); reflexivity.
  - reflexivity.
Qed.

Lemma reshape_null (host : Host) (result : JsVal) (w : World) :
  nullish result = true -> exists e, reshape host result w = (inl e, w).
Proof.
  intros Hr. unfold reshape, bind, lift, first_candidate.
  destruct (get_nullish host result (KName "candidates") Hr) as [e ->].
  exists e. reflexivity.
Qed.

(** ** Step 6, the sources *)

Lemma to_source_record (host : Host) (a : JsVal) :
  nullish a = false -> to_source host a = inr (web_citation a).
Proof.
  intros Ha. unfold to_source. rewrite (get_prop host _ _ Ha). reflexivity.
Qed.

Lemma exc_map_to_source (host : Host) (l : list JsVal) :
  attribution_records l = true ->
  exc_map (to_source host) l = inr (map web_citation l).
Proof.
  induction l as [|a l IH]; simpl; [reflexivity|].
  intros H. apply andb_prop in H. destruct H as [Ha Hl].
  apply negb_true_iff in Ha.
  rewrite (to_source_record host a Ha), (IH Hl). reflexivity.
Qed.

Lemma exc_map_to_source_throws (host : Host) (l : list JsVal) :
  attribution_records l = false ->
  exists e, exc_map (to_source host) l = inl e.
Proof.
  induction l as [|a l IH]; simpl; [discriminate|].
  destruct (nullish a) eqn:Ha; simpl; intros Hl.
  - unfold to_source. destruct (get_nullish host a (KName "web") Ha) as [e ->].
    exists e. reflexivity.
  - rewrite (to_source_record host a Ha). destruct (IH Hl) as [e ->].
    exists e. reflexivity.
Qed.

Lemma is_complete_citation (host : Host) (s : JsVal) :
  nullish s = false ->
  exists keep, is_complete host s = inr keep /\ truthy keep = complete s.
Proof.
  intros Hs. unfold is_complete, js_and, complete, has_uri, has_title.
  rewrite (get_prop host _ _ Hs). simpl exc_bind.
  destruct (truthy (prop s (KName "uri"))) eqn:Hu.
  - rewrite (get_prop host _ _ Hs). eexists. split; reflexivity.
  - eexists. split; [reflexivity | assumption].
Qed.

Lemma exc_filter_complete (host : Host) (l : list JsVal) :
  forallb (fun s => negb (nullish s)) l = true ->
  exc_filter (is_complete host) l = inr (filter complete l).
Proof.
  induction l as [|s l IH]; simpl; [reflexivity|].
  intros H. apply andb_prop in H. destruct H as [Hs Hl].
  apply negb_true_iff in Hs.
  destruct (is_complete_citation host s Hs) as (keep & -> & Hk).
  rewrite (IH Hl). simpl exc_bind. rewrite Hk. reflexivity.
Qed.

Lemma citations_not_nullish (l : list JsVal) :
  forallb (fun s => negb (nullish s)) (map web_citation l) = true.
Proof. induction l as [|a l IH]; simpl; auto. Qed.

(** The test of line 75 is the truthiness of the attributions. *)
Lemma grounding_test (host : Host) (candidate : JsVal) :
  truthy candidate = true ->
  exists has,
    js_and (prop candidate (KName "groundingMetadata"))
      (get host (prop candidate (KName "groundingMetadata"))
         (KName "groundingAttributions")) = inr has
    /\ truthy has = truthy (attributions_of candidate)
    /\ (truthy has = true ->
        nullish (prop candidate (KName "groundingMetadata")) = false
        /\ attributions_of candidate =
           prop (prop candidate (KName "groundingMetadata"))
             (KName "groundingAttributions")).
Proof.
  intros Hc. unfold attributions_of, js_and.
  rewrite (opt_get_prop candidate _ (truthy_not_nullish _ Hc)).
  destruct (truthy (prop candidate (KName "groundingMetadata"))) eqn:Hg.
  - pose proof (truthy_not_nullish _ Hg) as Hn.
    rewrite (get_prop host _ _ Hn), (opt_get_prop _ _ Hn).
    eexists. split; [reflexivity|]. split; [reflexivity|]. auto.
  - eexists. split; [reflexivity|].
    rewrite (falsy_opt_get _ "groundingAttributions" Hg eq_refl).
    split; [assumption | congruence].
Qed.

(** The sources of a candidate, by the shape of its attributions. *)
Lemma extract_sources_cases (host : Host) (candidate : JsVal) :
  truthy candidate = true ->
  match attributions_of candidate with
  | JArr l =>
      if attribution_records l
      then extract_sources host candidate = inr (JArr (filter complete (map web_citation l)))
      else exists e, extract_sources host candidate = inl e
  | v =>
      if truthy v
      then exists e, extract_sources host candidate = inl e
      else extract_sources host candidate = inr (JArr [])
  end.
Proof.
  intros Hc.
  destruct (grounding_test host candidate Hc) as (has & Hhas & Htr & Hshape).
  unfold extract_sources.
  rewrite (get_prop host _ _ (truthy_not_nullish _ Hc)). simpl exc_bind.
  rewrite Hhas. simpl exc_bind. rewrite Htr.
  destruct (truthy (attributions_of candidate)) eqn:Ha.
  - rewrite Htr in Hshape. destruct (Hshape eq_refl) as (Hn & Heq).
    rewrite (get_prop host _ _ Hn). simpl exc_bind. rewrite <- Heq.
    destruct (attributions_of candidate) as [| |b|n|s|l|fields] eqn:Hv.
    1-5, 7: simpl in Ha |- *; try discriminate; try rewrite Ha; eexists; reflexivity.
    simpl call_map.
    destruct (attribution_records l) eqn:Hl.
    + rewrite (exc_map_to_source host l Hl). simpl exc_bind.
      rewrite (exc_filter_complete host _ (citations_not_nullish l)). reflexivity.
    + destruct (exc_map_to_source_throws host l Hl) as [e ->].
      exists e. reflexivity.
  - destruct (attributions_of candidate);
      simpl in Ha |- *; try discriminate; try rewrite Ha; reflexivity.
Qed.

(** Whatever the handler emits as sources is an array of complete entries. *)
Lemma extract_sources_complete (host : Host) (candidate v : JsVal) :
  truthy candidate = true ->
  extract_sources host candidate = inr v ->
  exists l, v = JArr l /\ forall s, In s l -> complete s = true.
Proof.
  intros Hc Hv. pose proof (extract_sources_cases host candidate Hc) as H.
  destruct (attributions_of candidate) as [| |b|n|s|l|fields].
  1-5, 7: cbv iota beta in H;
    match type of H with
    | if ?c then _ else _ => destruct c
    end;
    [destruct H as [e He]; congruence
    |rewrite H in Hv; injection Hv as <-; exists []; split;
     [reflexivity | intros s0 []]].
  destruct (attribution_records l).
  - rewrite H in Hv. injection Hv as <-. eexists. split; [reflexivity|].
    intros s Hs. apply filter_In in Hs. tauto.
  - destruct H as [e He]. congruence.
Qed.

(** ** The whole run on a success response *)

Lemma chain_truthy_candidate (result : JsVal) :
  truthy (fold_left opt_get text_path result) = true ->
  truthy (candidate_of result) = true.
Proof.
  unfold text_path. simpl fold_left. fold (candidate_of result).
  destruct (truthy (candidate_of result)) eqn:Hc; [reflexivity|].
  rewrite (falsy_opt_get _ "content" Hc eq_refl). simpl. congruence.
Qed.

Lemma chain_nullish (result : JsVal) :
  nullish result = true -> fold_left opt_get text_path result = JUndefined.
Proof.
  intros Hr. unfold text_path. simpl fold_left. unfold opt_get at 6.
  rewrite Hr. reflexivity.
Qed.

Lemma run_reshaped (host : Host) (req : Request) (r : Response) (result : JsVal) :
  first_failure host req = None ->
  fetch host (outbound host req) = inr r ->
  ok r = true ->
  json r = inr result ->
  nullish result = false ->
  run host req =
  let t := fold_left opt_get text_path result in
  if truthy t then
    match extract_sources host (candidate_of result) with
    | inl e => caught e (called host req)
    | inr sources => (inr tt, answered (called host req) t sources)
    end
  else (inr tt, unexpected (called host req) result).
Proof.
  intros H Hf Hok Hj Hr.
  rewrite (run_provider_success host req r H Hf Hok), Hj.
  rewrite (reshape_chain host result _ Hr). cbv zeta.
  destruct (truthy (fold_left opt_get text_path result)); [|reflexivity].
  destruct (extract_sources host (candidate_of result)); reflexivity.
Qed.

Lemma run_null_result (host : Host) (req : Request) (r : Response) (result : JsVal) :
  first_failure host req = None ->
  fetch host (outbound host req) = inr r ->
  ok r = true ->
  json r = inr result ->
  nullish result = true ->
  exists e, run host req = caught e (called host req).
Proof.
  intros H Hf Hok Hj Hr.
  rewrite (run_provider_success host req r H Hf Hok), Hj.
  destruct (reshape_null host result (called host req) Hr) as [e ->].
  exists e. reflexivity.
Qed.

Lemma reply_body_inj (c : Z) (a b : JsVal) : Some (c, a) = Some (c, b) -> a = b.
Proof. intros [= ->]. reflexivity. Qed.

Lemma server_error_not_unexpected (m : string) :
  error_body ("Server error: " ++ m)
  <> error_body "The API returned an unexpected response.".
Proof. unfold error_body. simpl. intros H. discriminate H. Qed.

(** On a success response with a JSON body, the fixed 500 is the answer to
    exactly the bodies, other than [null], without a truthy text. *)
Lemma run_unexpected_iff (host : Host) (req : Request) (r : Response) (result : JsVal) :
  first_failure host req = None ->
  fetch host (outbound host req) = inr r ->
  ok r = true ->
  json r = inr result ->
  reply (snd (run host req))
  = Some (500, error_body "The API returned an unexpected response.")
  <-> nullish result = false
      /\ forall t, text_at_path result = Some t -> truthy t = false.
Proof.
  intros H Hf Hok Hj. unfold text_at_path. split.
  - intros Hrep. destruct (nullish result) eqn:Hr.
    + destruct (run_null_result host req r result H Hf Hok Hj Hr) as [e He].
      rewrite He in Hrep. simpl in Hrep. apply reply_body_inj in Hrep.
      destruct (server_error_not_unexpected _ Hrep).
    + split; [reflexivity|]. intros t Ht.
      rewrite path_lookup_chain in Ht. apply present_some in Ht. subst t.
      rewrite (run_reshaped host req r result H Hf Hok Hj Hr) in Hrep. cbv zeta in Hrep.
      destruct (truthy (fold_left opt_get text_path result)); [|reflexivity].
      destruct (extract_sources host (candidate_of result)); simpl in Hrep.
      * apply reply_body_inj in Hrep. destruct (server_error_not_unexpected _ Hrep).
      * discriminate Hrep.
  - intros [Hr Hno].
    rewrite (run_reshaped host req r result H Hf Hok Hj Hr). cbv zeta.
    destruct (truthy (fold_left opt_get text_path result)) eqn:Ht; [|reflexivity].
    specialize (Hno (fold_left opt_get text_path result)).
    rewrite path_lookup_chain in Hno. rewrite (Hno (present_truthy _ Ht)) in Ht.
    discriminate Ht.
Qed.

Lemma run_absent_body (host : Host) (req : Request) :
  (method req =? "POST")%string = true ->
  env_truthy (GEMINI_API_KEY host) = true ->
  nullish (body req) = true ->
  run host req =
  (inl {| exn_name := "TypeError";
          message := type_error_message host (DestructureNullish (body req)) |},
   initial_world).
Proof.
  intros Hm Hk Hb. unfold run, handler. rewrite Hm, Hk. simpl negb. cbv iota.
  unfold bind, lift, destructure. rewrite Hb. reflexivity.
Qed.

(** ** Every reply the handler can give *)

Lemma first_failure_field (host : Host) (req : Request) :
  first_failure host req = Some RequiredFieldCheck ->
  (method req =? "POST")%string = true /\ env_truthy (GEMINI_API_KEY host) = true.
Proof.
  unfold first_failure.
  destruct (method req =? "POST")%string; simpl; [|discriminate].
  destruct (env_truthy (GEMINI_API_KEY host)); simpl; [auto | discriminate].
Qed.

Lemma run_emits (host : Host) (req : Request) :
  Emitted (reply (snd (run host req))).
Proof.
  destruct (first_failure host req) as [c|] eqn:H.
  - destruct (nullish (body req)) eqn:Hb; [destruct c|].
    1, 2, 4: (rewrite (proj2 (run_rejected host req _ H));
              [apply emitted_rejection | auto; right; discriminate]).
    destruct (first_failure_field host req H) as [Hm Hk].
    rewrite (run_absent_body host req Hm Hk Hb). apply emitted_nothing.
  - destruct (fetch host (outbound host req)) as [e|r] eqn:Hf.
    { rewrite (run_fetch_rejects host req e H Hf). apply emitted_server_error. }
    destruct (ok r) eqn:Hok.
    + destruct (json r) as [e|result] eqn:Hj.
      { rewrite (run_provider_success host req r H Hf Hok), Hj.
        apply emitted_server_error. }
      destruct (nullish result) eqn:Hr.
      * destruct (run_null_result host req r result H Hf Hok Hj Hr) as [e ->].
        apply emitted_server_error.
      * rewrite (run_reshaped host req r result H Hf Hok Hj Hr). cbv zeta.
        destruct (truthy (fold_left opt_get text_path result)) eqn:Ht;
          [|apply emitted_unexpected].
        destruct (extract_sources host (candidate_of result)) as [e|v] eqn:Hs;
          [apply emitted_server_error|].
        destruct (extract_sources_complete host _ v (chain_truthy_candidate _ Ht) Hs)
          as (l & -> & Hl).
        apply emitted_answer; assumption.
    + rewrite (run_provider_error host req r H Hf Hok).
      destruct (text r) as [e|raw]; [apply emitted_server_error|].
      apply emitted_provider_error. exact Hok.
Qed.

(** Nothing after [fetch] touches the list of outbound calls. *)
Lemma run_calls (host : Host) (req : Request) :
  first_failure host req = None ->
  calls (snd (run host req)) = [outbound host req].
Proof.
  intros H.
  destruct (fetch host (outbound host req)) as [e|r] eqn:Hf.
  { rewrite (run_fetch_rejects host req e H Hf). reflexivity. }
  destruct (ok r) eqn:Hok.
  - destruct (json r) as [e|result] eqn:Hj.
    { rewrite (run_provider_success host req r H Hf Hok), Hj. reflexivity. }
    destruct (nullish result) eqn:Hr.
    + destruct (run_null_result host req r result H Hf Hok Hj Hr) as [e ->].
      reflexivity.
    + rewrite (run_reshaped host req r result H Hf Hok Hj Hr). cbv zeta.
      destruct (truthy (fold_left opt_get text_path result)); [|reflexivity].
      destruct (extract_sources host (candidate_of result)); reflexivity.
  - rewrite (run_provider_error host req r H Hf Hok).
    destruct (text r); reflexivity.
Qed.

(** With a body to destructure, the promise of the handler resolves and a
    reply has been sent. *)
Lemma run_resolves (host : Host) (req : Request) :
  nullish (body req) = false ->
  fst (run host req) = inr tt /\ reply (snd (run host req)) <> None.
Proof.
  intros Hb.
  destruct (first_failure host req) as [c|] eqn:H.
  { rewrite (proj2 (run_rejected host req c H) (or_introl Hb)).
    split; [reflexivity | discriminate]. }
  destruct (fetch host (outbound host req)) as [e|r] eqn:Hf.
  { rewrite (run_fetch_rejects host req e H Hf). split; [reflexivity | discriminate]. }
  destruct (ok r) eqn:Hok.
  - destruct (json r) as [e|result] eqn:Hj.
    { rewrite (run_provider_success host req r H Hf Hok), Hj.
      split; [reflexivity | discriminate]. }
    destruct (nullish result) eqn:Hr.
    + destruct (run_null_result host req r result H Hf Hok Hj Hr) as [e ->].
      split; [reflexivity | discriminate].
    + rewrite (run_reshaped host req r result H Hf Hok Hj Hr). cbv zeta.
      destruct (truthy (fold_left opt_get text_path result));
        [|split; [reflexivity | discriminate]].
      destruct (extract_sources host (candidate_of result));
        split; try reflexivity; discriminate.
  - rewrite (run_provider_error host req r H Hf Hok).
    destruct (text r); split; try reflexivity; discriminate.
Qed.

(** * The claims *)

(** ** Validation (C7, C10, C3) *)

(** C7. Validation runs in the order method, configuration, required field
    and stops at the first failure: a request that is not a POST gets 405
    "Method Not Allowed" whatever its key and body; a POST without a key gets
    the configuration error whatever its body; and whenever one of the three
    checks fails the provider is not called. *)
Theorem validation_order (host : Host) (req : Request) :
  (method req <> "POST" ->
   reply (snd (run host req)) = Some (405, error_body "Method Not Allowed")
   /\ calls (snd (run host req)) = [])
  /\ (method req = "POST" -> env_truthy (GEMINI_API_KEY host) = false ->
      reply (snd (run host req))
      = Some (500, error_body "API key is not configured on the server.")
      /\ calls (snd (run host req)) = [])
  /\ (method req = "POST" -> env_truthy (GEMINI_API_KEY host) = true ->
      userQuery_missing req = true ->
      calls (snd (run host req)) = []
      /\ (nullish (body req) = false ->
          reply (snd (run host req)) = Some (400, error_body "userQuery is required."))).
Proof.
  split; [|split].
  - intros Hm. apply String.eqb_neq in Hm.
    assert (H : first_failure host req = Some MethodCheck).
    { unfold first_failure. rewrite Hm. reflexivity. }
    destruct (run_rejected host req _ H) as [Hc Hr].
    rewrite Hr by (right; discriminate). split; reflexivity.
  - intros Hm Hk. apply String.eqb_eq in Hm.
    assert (H : first_failure host req = Some ConfigurationCheck).
    { unfold first_failure. rewrite Hm, Hk. reflexivity. }
    destruct (run_rejected host req _ H) as [Hc Hr].
    rewrite Hr by (right; discriminate). split; reflexivity.
  - intros Hm Hk Hq. apply String.eqb_eq in Hm.
    assert (H : first_failure host req = Some RequiredFieldCheck).
    { unfold first_failure. rewrite Hm, Hk, Hq. reflexivity. }
    destruct (run_rejected host req _ H) as [Hc Hr].
    split; [exact Hc|]. intros Hb. rewrite Hr by (left; exact Hb). reflexivity.
Qed.

(** A GET with no key and no [userQuery] is answered by the method check. *)
Lemma validation_order_witness :
  let req := {| method := "GET"; body := JObj [] |} in
  method req <> "POST"
  /\ reply (snd (run (host_offline None) req)) = Some (405, error_body "Method Not Allowed")
  /\ calls (snd (run (host_offline None) req)) = [].
Proof.
  intros req.
  assert (Hm : method req <> "POST") by (simpl; discriminate).
  split; [exact Hm|].
  exact (proj1 (validation_order (host_offline None) req) Hm).
Defined.

(** C10. An empty [GEMINI_API_KEY] is an unconfigured one: every POST gets
    500 "API key is not configured on the server.", the provider is not
    called, and the run is the run of the same host with the key unset. *)
Theorem empty_key_is_unconfigured (host : Host) (req : Request) :
  GEMINI_API_KEY host = Some "" ->
  method req = "POST" ->
  run host req
  = (inr tt,
     {| reply := Some (500, error_body "API key is not configured on the server.");
        calls := [];
        console := [] |})
  /\ run host req
     = run {| type_error_message := type_error_message host;
              GEMINI_API_KEY := None;
              fetch := fetch host |} req.
Proof.
  intros Hk Hm. unfold run, handler. simpl GEMINI_API_KEY.
  rewrite Hk, Hm. split; reflexivity.
Qed.

Lemma empty_key_is_unconfigured_witness :
  run (host_answering (Some "") (json_response 200 (answer (JStr "Paris") []))) (post hello)
  = (inr tt,
     {| reply := Some (500, error_body "API key is not configured on the server.");
        calls := [];
        console := [] |}).
Proof.
  exact (proj1 (empty_key_is_unconfigured
                  (host_answering (Some "") (json_response 200 (answer (JStr "Paris") [])))
                  (post hello) eq_refl eq_refl)).
Defined.

(** C3, at the failing input.  A POST to a configured server whose body is
    absent makes the destructuring of line 28 throw outside the [try]: the
    promise of the handler rejects with that [TypeError] and no reply has
    been sent. *)
Theorem absent_body_escapes (host : Host) (req : Request) :
  method req = "POST" ->
  env_truthy (GEMINI_API_KEY host) = true ->
  nullish (body req) = true ->
  fst (run host req)
  = inl {| exn_name := "TypeError";
           message := type_error_message host (DestructureNullish (body req)) |}
  /\ reply (snd (run host req)) = None.
Proof.
  intros Hm Hk Hb. apply String.eqb_eq in Hm.
  rewrite (run_absent_body host req Hm Hk Hb). split; reflexivity.
Qed.

Lemma absent_body_escapes_witness :
  let host := host_answering (Some "k") (json_response 200 (answer (JStr "Paris") [])) in
  fst (run host (post JUndefined))
  = inl {| exn_name := "TypeError";
           message := "Cannot destructure property 'userQuery' of 'req.body' as it is undefined." |}
  /\ reply (snd (run host (post JUndefined))) = None.
Proof.
  intros host.
  exact (absent_body_escapes host (post JUndefined) eq_refl eq_refl eq_refl).
Defined.

(** ** The outbound payload (C8) *)

(** C8. For a request that passes validation the one outbound call carries a
    payload with the user query as its sole content part; it has a [tools]
    key exactly when [useGrounding] is truthy, holding one search-tool
    marker; it has a [systemInstruction] key exactly when [systemPrompt] is
    truthy (for a string: non-empty), with
    [systemInstruction.parts[0].text] equal to [systemPrompt]. *)
Theorem payload_optional_keys (host : Host) (req : Request) :
  first_failure host req = None ->
  let userQuery := prop (body req) (KName "userQuery") in
  let systemPrompt := prop (body req) (KName "systemPrompt") in
  let useGrounding := prop (body req) (KName "useGrounding") in
  exists payload,
    map init_body (calls (snd (run host req))) = [payload]
    /\ prop payload (KName "contents")
       = JArr [JObj [("parts", JArr [JObj [("text", userQuery)]])]]
    /\ has_key "tools" payload = truthy useGrounding
    /\ (truthy useGrounding = true ->
        prop payload (KName "tools") = JArr [JObj [("google_search", JObj [])]])
    /\ has_key "systemInstruction" payload = truthy systemPrompt
    /\ (truthy systemPrompt = true ->
        prop (prop (prop (prop payload (KName "systemInstruction")) (KName "parts"))
                (KIndex 0)) (KName "text") = systemPrompt)
    /\ (forall s, systemPrompt = JStr s -> (truthy systemPrompt = true <-> s <> "")).
Proof.
  intros H userQuery systemPrompt useGrounding.
  exists (init_body (outbound host req)).
  split. { rewrite (run_calls host req H). reflexivity. }
  unfold outbound, build_payload. simpl init_body.
  fold userQuery systemPrompt useGrounding.
  repeat split.
  - destruct (truthy useGrounding), (truthy systemPrompt); reflexivity.
  - destruct (truthy useGrounding), (truthy systemPrompt); reflexivity.
  - intros ->. destruct (truthy systemPrompt); reflexivity.
  - destruct (truthy useGrounding), (truthy systemPrompt); reflexivity.
  - intros ->. destruct (truthy useGrounding); reflexivity.
  - rewrite H0. simpl. intros Hs. apply negb_true_iff in Hs.
    apply String.eqb_neq in Hs. exact Hs.
  - rewrite H0. simpl. intros Hs. apply negb_true_iff.
    apply String.eqb_neq. exact Hs.
Qed.

(** "hello" alone: neither key.  With grounding and "Be concise": both. *)
Lemma payload_optional_keys_witness :
  (exists payload,
     map init_body (calls (snd (run (host_offline (Some "k")) (post hello)))) = [payload]
     /\ has_key "tools" payload = false
     /\ has_key "systemInstruction" payload = false)
  /\ (exists payload,
        map init_body
          (calls (snd (run (host_offline (Some "k"))
                         (post (JObj [("userQuery", JStr "hello");
                                      ("systemPrompt", JStr "Be concise");
                                      ("useGrounding", JBool true)])))))
        = [payload]
        /\ prop payload (KName "tools") = JArr [JObj [("google_search", JObj [])]]
        /\ prop (prop (prop (prop payload (KName "systemInstruction")) (KName "parts"))
                   (KIndex 0)) (KName "text") = JStr "Be concise").
Proof.
  split.
  - destruct (payload_optional_keys (host_offline (Some "k")) (post hello) eq_refl)
      as (payload & Hc & _ & Ht & _ & Hs & _).
    exists payload. auto.
  - destruct (payload_optional_keys (host_offline (Some "k"))
                (post (JObj [("userQuery", JStr "hello");
                             ("systemPrompt", JStr "Be concise");
                             ("useGrounding", JBool true)])) eq_refl)
      as (payload & Hc & _ & _ & Ht & _ & Hs & _).
    exists payload. split; [exact Hc|]. split; [exact (Ht eq_refl) | exact (Hs eq_refl)].
Defined.

(** ** Provider errors (C2) *)

(** C2. When the provider answers with a status outside 200-299 and raw body
    text [raw], the handler replies with that very status and
    [{error: "Google API Error: " + raw}]. *)
Theorem provider_error_relayed (host : Host) (req : Request) (r : Response) (raw : string) :
  first_failure host req = None ->
  fetch host (outbound host req) = inr r ->
  ok r = false ->
  text r = inr raw ->
  fst (run host req) = inr tt
  /\ reply (snd (run host req))
     = Some (status r, JObj [("error", JStr ("Google API Error: " ++ raw))]).
Proof.
  intros H Hf Hok Ht.
  rewrite (run_provider_error host req r H Hf Hok), Ht. split; reflexivity.
Qed.

(** A 429 with body "rate limited". *)
Lemma provider_error_relayed_witness :
  reply (snd (run (host_answering (Some "k") (text_response 429 "rate limited"))
                (post hello)))
  = Some (429, JObj [("error", JStr "Google API Error: rate limited")]).
Proof.
  exact (proj2 (provider_error_relayed
                  (host_answering (Some "k") (text_response 429 "rate limited"))
                  (post hello) (text_response 429 "rate limited") "rate limited"
                  eq_refl eq_refl eq_refl eq_refl)).
Defined.

(** ** The text of a success response (C1, C6) *)

(** C1 as stated fails: the path [candidates[0].content.parts[0].text] is
    present, holding the empty string, and the handler answers with the
    "unexpected response" 500. *)
Lemma present_empty_text_unexpected :
  text_at_path (answer (JStr "") []) = Some (JStr "")
  /\ reply (snd (run (host_answering (Some "k") (json_response 200 (answer (JStr "") [])))
                   (post hello)))
     = Some (500, error_body "The API returned an unexpected response.").
Proof. split; reflexivity. Qed.

(** C1 (amended). On a success response whose body parses to [result]: if
    the path [candidates[0].content.parts[0].text] holds a truthy value and
    the grounding attributions, if any, are an array of records, the reply is
    200 with [{text, sources}] where [text] is that value; and for a
    [result] other than [null] the "unexpected response" 500 is the reply if
    and only if the path is absent or holds a falsy value. *)
Theorem success_text_or_unexpected
  (host : Host) (req : Request) (r : Response) (result : JsVal) :
  first_failure host req = None ->
  fetch host (outbound host req) = inr r ->
  ok r = true ->
  json r = inr result ->
  (forall t,
     text_at_path result = Some t -> truthy t = true ->
     attributions_usable (candidate_of result) = true ->
     exists sources,
       reply (snd (run host req))
       = Some (200, JObj [("text", t); ("sources", JArr sources)]))
  /\ (nullish result = false ->
      (reply (snd (run host req))
       = Some (500, JObj [("error", JStr "The API returned an unexpected response.")])
       <-> forall t, text_at_path result = Some t -> truthy t = false)).
Proof.
  intros H Hf Hok Hj. split.
  2:{ intros Hr. rewrite (run_unexpected_iff host req r result H Hf Hok Hj).
      fold (error_body "The API returned an unexpected response."). tauto. }
  intros t Ht Htr Hu. unfold text_at_path in Ht.
  rewrite path_lookup_chain in Ht. apply present_some in Ht.
  assert (Hr : nullish result = false).
  { destruct (nullish result) eqn:Hr; [|reflexivity].
    rewrite (chain_nullish result Hr) in Ht. subst t. discriminate Htr. }
  rewrite (run_reshaped host req r result H Hf Hok Hj Hr). cbv zeta.
  rewrite Ht, Htr. rewrite <- Ht in Htr.
  pose proof (extract_sources_cases host _ (chain_truthy_candidate result Htr)) as Hs.
  unfold attributions_usable in Hu.
  destruct (attributions_of (candidate_of result)) as [| |b|n|s|l|fields].
  1-5, 7: cbv iota beta in Hu, Hs; apply negb_true_iff in Hu; rewrite Hu in Hs;
    rewrite Hs; exists []; reflexivity.
  rewrite Hu in Hs. rewrite Hs. eexists. reflexivity.
Qed.

(** "Paris" and no grounding metadata: [{text: "Paris", sources: []}]. *)
Lemma success_text_or_unexpected_witness :
  exists sources,
    reply (snd (run (host_answering (Some "k") (json_response 200 (answer (JStr "Paris") [])))
                  (post hello)))
    = Some (200, JObj [("text", JStr "Paris"); ("sources", JArr sources)]).
Proof.
  exact (proj1 (success_text_or_unexpected
                  (host_answering (Some "k") (json_response 200 (answer (JStr "Paris") [])))
                  (post hello) (json_response 200 (answer (JStr "Paris") []))
                  (answer (JStr "Paris") []) eq_refl eq_refl eq_refl eq_refl)
               (JStr "Paris") eq_refl eq_refl eq_refl).
Defined.

(** C6 as stated fails: a success status with a body that is not JSON is
    answered with the message of the parse error, not with the fixed
    "unexpected response" body. *)
Lemma malformed_body_server_error :
  json (text_response 200 "<html>")
  = inl {| exn_name := "SyntaxError"; message := "Unexpected token in JSON at position 0" |}
  /\ reply (snd (run (host_answering (Some "k") (text_response 200 "<html>")) (post hello)))
     = Some (500, error_body "Server error: Unexpected token in JSON at position 0")
  /\ reply (snd (run (host_answering (Some "k") (text_response 200 "<html>")) (post hello)))
     <> Some (500, error_body "The API returned an unexpected response.").
Proof. split; [reflexivity|]. split; [reflexivity|]. simpl. discriminate. Qed.

(** C6 (amended). On a success status: a body that parses to a value other
    than [null] in which [candidates[0].content.parts[0].text] is absent or
    falsy gets 500 with exactly [{error: "The API returned an unexpected
    response."}]; a body that does not parse gets 500 with
    [{error: "Server error: " + the parser's message}]. *)
Theorem unexpected_shape_or_parse_error (host : Host) (req : Request) (r : Response) :
  first_failure host req = None ->
  fetch host (outbound host req) = inr r ->
  ok r = true ->
  (forall result,
     json r = inr result -> nullish result = false ->
     (forall t, text_at_path result = Some t -> truthy t = false) ->
     reply (snd (run host req))
     = Some (500, JObj [("error", JStr "The API returned an unexpected response.")]))
  /\ (forall e,
        json r = inl e ->
        reply (snd (run host req))
        = Some (500, JObj [("error", JStr ("Server error: " ++ message e))])).
Proof.
  intros H Hf Hok. split.
  - intros result Hj Hr Hno.
    apply (run_unexpected_iff host req r result H Hf Hok Hj). auto.
  - intros e Hj. rewrite (run_provider_success host req r H Hf Hok), Hj. reflexivity.
Qed.

(** A 200 without [candidates]; a 200 that is not JSON. *)
Lemma unexpected_shape_or_parse_error_witness :
  reply (snd (run (host_answering (Some "k") (json_response 200 (JObj []))) (post hello)))
  = Some (500, JObj [("error", JStr "The API returned an unexpected response.")])
  /\ reply (snd (run (host_answering (Some "k") (text_response 200 "<html>")) (post hello)))
     = Some (500, JObj [("error",
                         JStr "Server error: Unexpected token in JSON at position 0")]).
Proof.
  split.
  - apply (proj1 (unexpected_shape_or_parse_error
                    (host_answering (Some "k") (json_response 200 (JObj [])))
                    (post hello) (json_response 200 (JObj []))
                    eq_refl eq_refl eq_refl) (JObj []) eq_refl eq_refl).
    intros t Ht. discriminate Ht.
  - exact (proj2 (unexpected_shape_or_parse_error
                    (host_answering (Some "k") (text_response 200 "<html>"))
                    (post hello) (text_response 200 "<html>")
                    eq_refl eq_refl eq_refl) _ eq_refl).
Defined.

(** ** Grounding sources (C4, C5, C9) *)

(** C4 as stated fails: an attribution with a URI and no title is not
    retained. *)
Lemma uri_without_title_dropped :
  let entry := web [("uri", JStr "http://y")] in
  has_uri (web_citation entry) = true
  /\ has_title (web_citation entry) = false
  /\ reply (snd (run (host_answering (Some "k")
                        (json_response 200
                           (answer (JStr "Paris") (grounded (JArr [entry])))))
                   (post hello)))
     = Some (200, JObj [("text", JStr "Paris"); ("sources", JArr [])]).
Proof. cbv zeta. split; [reflexivity|]. split; reflexivity. Qed.

(** C4 (amended). An attribution's citation is retained in the sources
    exactly when it has both a URI and a title; one that lacks either is
    filtered out. *)
Theorem source_kept_iff_complete (host : Host) (candidate : JsVal) (l : list JsVal) :
  truthy candidate = true ->
  attributions_of candidate = JArr l ->
  attribution_records l = true ->
  exists kept,
    extract_sources host candidate = inr (JArr kept)
    /\ forall a, In a l ->
         (In (web_citation a) kept
          <-> has_uri (web_citation a) = true /\ has_title (web_citation a) = true).
Proof.
  intros Hc Ha Hl. pose proof (extract_sources_cases host candidate Hc) as H.
  rewrite Ha, Hl in H. exists (filter complete (map web_citation l)).
  split; [exact H|]. intros a Hin. rewrite filter_In. unfold complete.
  rewrite andb_true_iff. split; [tauto|].
  intros Hb. split; [|exact Hb]. apply in_map. exact Hin.
Qed.

Lemma source_kept_iff_complete_witness :
  let complete_entry := web [("uri", JStr "http://x"); ("title", JStr "X")] in
  let untitled_entry := web [("uri", JStr "http://y")] in
  exists kept,
    extract_sources (host_offline None)
      (JObj (grounded (JArr [complete_entry; untitled_entry]))) = inr (JArr kept)
    /\ In (web_citation complete_entry) kept
    /\ ~ In (web_citation untitled_entry) kept.
Proof.
  intros complete_entry untitled_entry.
  destruct (source_kept_iff_complete (host_offline None)
              (JObj (grounded (JArr [complete_entry; untitled_entry])))
              [complete_entry; untitled_entry] eq_refl eq_refl eq_refl)
    as (kept & Hk & Hiff).
  exists kept. split; [exact Hk|]. split.
  - apply (Hiff complete_entry); [left; reflexivity | split; reflexivity].
  - intros Hin. apply (Hiff untitled_entry) in Hin; [|right; left; reflexivity].
    destruct Hin as [_ Ht]. discriminate Ht.
Defined.




(** C9. In every 200 reply the body is [{text, sources}] and every element
    of [sources] has a truthy [uri] and a truthy [title]: neither is
    [undefined], [null] or the empty string. *)
Theorem emitted_sources_complete (host : Host) (req : Request) (b : JsVal) :
  reply (snd (run host req)) = Some (200, b) ->
  exists t l,
    b = JObj [("text", t); ("sources", JArr l)]
    /\ forall s, In s l ->
         forall f, f = "uri" \/ f = "title" ->
           truthy (prop s (KName f)) = true
           /\ prop s (KName f) <> JUndefined
           /\ prop s (KName f) <> JNull
           /\ prop s (KName f) <> JStr "".
Proof.
  intros Hrep. pose proof (run_emits host req) as He. rewrite Hrep in He.
  inversion He as [ | c Hc | m Hm | code raw Hcode Hc | | t l Ht Hl Hb ].
  - destruct c; discriminate Hc.
  - subst code. discriminate Hcode.
  - exists t, l. split; [reflexivity|].
    intros s Hs f Hf. specialize (Hl s Hs). unfold complete in Hl.
    apply andb_prop in Hl. destruct Hl as [Hu Hti].
    assert (Hp : truthy (prop s (KName f)) = true).
    { destruct Hf as [-> | ->]; assumption. }
    split; [exact Hp|].
    repeat split; intros Heq; rewrite Heq in Hp; discriminate Hp.
Qed.

Lemma emitted_sources_complete_witness :
  exists t l,
    JObj [("text", JStr "Paris");
          ("sources", JArr [JObj [("uri", JStr "http://x"); ("title", JStr "X")]])]
    = JObj [("text", t); ("sources", JArr l)]
    /\ forall s, In s l ->
         forall f, f = "uri" \/ f = "title" ->
           truthy (prop s (KName f)) = true
           /\ prop s (KName f) <> JUndefined
           /\ prop s (KName f) <> JNull
           /\ prop s (KName f) <> JStr "".
Proof.
  exact (emitted_sources_complete
           (host_answering (Some "k")
              (json_response 200
                 (answer (JStr "Paris")
                    (grounded (JArr [web [("uri", JStr "http://x"); ("title", JStr "X")];
                                     web [("uri", JStr "http://y")]])))))
           (post hello) _ eq_refl).
Defined.


(** * Further properties of the handler *)

(** ** Every path through the handler *)

Lemma extract_sources_usable (host : Host) (candidate : JsVal) :
  truthy candidate = true ->
  if attributions_usable candidate
  then exists l, extract_sources host candidate = inr (JArr l)
                 /\ forall s, In s l -> complete s = true
  else exists e, extract_sources host candidate = inl e.
Proof.
  intros Hc. pose proof (extract_sources_cases host candidate Hc) as H.
  unfold attributions_usable.
  destruct (attributions_of candidate) as [| |b|n|s|l|fields].
  1-5, 7: cbv iota beta in H |- *;
    match type of H with
    | if ?c then _ else _ => destruct c
    end; simpl negb; cbv iota;
    [exact H | exists []; split; [exact H | intros s0 []]].
  destruct (attribution_records l); [|exact H].
  eexists. split; [exact H|]. intros s Hs. apply filter_In in Hs. tauto.
Qed.

Lemma reshape_null_fault (host : Host) (result : JsVal) (w : World) :
  nullish result = true ->
  reshape host result w
  = (inl {| exn_name := "TypeError";
            message := type_error_message host (ReadOfNullish result (KName "candidates")) |},
     w).
Proof.
  intros Hr. unfold reshape, bind, lift, first_candidate, get. rewrite Hr. reflexivity.
Qed.

Lemma run_outcome (host : Host) (req : Request) :
  Outcome host req (run host req).
Proof.
  destruct (first_failure host req) as [c|] eqn:H.
  - destruct (nullish (body req)) eqn:Hb; [destruct c|].
    1, 2, 4: (rewrite (proj2 (run_rejected host req _ H));
              [apply out_rejected; [exact H|] | ]; auto; right; discriminate).
    destruct (first_failure_field host req H) as [Hm Hk].
    rewrite (run_absent_body host req Hm Hk Hb). apply out_escaped; assumption.
  - destruct (fetch host (outbound host req)) as [e|r] eqn:Hf.
    { rewrite (run_fetch_rejects host req e H Hf). apply out_fetch_failed; assumption. }
    destruct (ok r) eqn:Hok.
    + destruct (json r) as [e|result] eqn:Hj.
      { rewrite (run_provider_success host req r H Hf Hok), Hj.
        eapply out_json_failed; eassumption. }
      destruct (nullish result) eqn:Hr.
      * rewrite (run_provider_success host req r H Hf Hok), Hj.
        rewrite (reshape_null_fault host result _ Hr).
        eapply out_null_result; eassumption.
      * rewrite (run_reshaped host req r result H Hf Hok Hj Hr). cbv zeta.
        assert (Hp : text_at_path result = present (fold_left opt_get text_path result))
          by apply path_lookup_chain.
        destruct (truthy (fold_left opt_get text_path result)) eqn:Ht.
        -- rewrite (present_truthy _ Ht) in Hp.
           pose proof (extract_sources_usable host _ (chain_truthy_candidate _ Ht)) as Hs.
           destruct (attributions_usable (candidate_of result)) eqn:Hu.
           ++ destruct Hs as (l & -> & Hl). eapply out_answered; eassumption.
           ++ destruct Hs as (e & ->). eapply out_sources_failed; eassumption.
        -- eapply out_unexpected; try eassumption.
           intros t Hsome. rewrite Hp in Hsome. apply present_some in Hsome.
           subst t. exact Ht.
    + destruct (text r) as [e|raw] eqn:Htx.
      * rewrite (run_provider_error host req r H Hf Hok), Htx.
        eapply out_text_failed; eassumption.
      * rewrite (run_provider_error host req r H Hf Hok), Htx.
        eapply out_provider_error; eassumption.
Qed.

(** ** Faults of the provider call *)

(** X1. When [fetch] rejects, or the provider answers outside 200-299 and
    reading its body rejects, the handler resolves with 500
    [{error: "Server error: " + message}], after the one call, and logs the
    error once. *)
Theorem transport_failure_server_error (host : Host) (req : Request) (e : Exn) :
  first_failure host req = None ->
  fetch host (outbound host req) = inl e
  \/ (exists r, fetch host (outbound host req) = inr r /\ ok r = false /\ text r = inl e) ->
  fst (run host req) = inr tt
  /\ reply (snd (run host req))
     = Some (500, JObj [("error", JStr ("Server error: " ++ message e))])
  /\ calls (snd (run host req)) = [outbound host req]
  /\ console (snd (run host req)) = [("Server-side fetch error:", LogExn e)].
Proof.
  intros H [Hf | (r & Hf & Hok & Ht)].
  - rewrite (run_fetch_rejects host req e H Hf). repeat split.
  - rewrite (run_provider_error host req r H Hf Hok), Ht. repeat split.
Qed.

Lemma transport_failure_server_error_witness :
  reply (snd (run (host_offline (Some "k")) (post hello)))
  = Some (500, JObj [("error", JStr "Server error: fetch failed")]).
Proof.
  exact (proj1 (proj2 (transport_failure_server_error (host_offline (Some "k")) (post hello)
                         {| exn_name := "TypeError"; message := "fetch failed" |}
                         eq_refl (or_introl eq_refl)))).
Defined.

(** X2. A success response whose body is the JSON literal [null] is answered
    with 500 and the engine's message for reading [candidates] of [null], not
    with the fixed "unexpected response" body. *)
Theorem null_result_server_error (host : Host) (req : Request) (r : Response) :
  first_failure host req = None ->
  fetch host (outbound host req) = inr r ->
  ok r = true ->
  json r = inr JNull ->
  reply (snd (run host req))
  = Some (500,
          JObj [("error",
                 JStr ("Server error: "
                       ++ type_error_message host (ReadOfNullish JNull (KName "candidates"))))]).
Proof.
  intros H Hf Hok Hj.
  rewrite (run_provider_success host req r H Hf Hok), Hj.
  rewrite (reshape_null_fault host JNull _ eq_refl). reflexivity.
Qed.

Lemma null_result_server_error_witness :
  reply (snd (run (host_answering (Some "k") (json_response 200 JNull)) (post hello)))
  = Some (500,
          JObj [("error",
                 JStr "Server error: Cannot read properties of null (reading 'candidates')")]).
Proof.
  exact (null_result_server_error (host_answering (Some "k") (json_response 200 JNull))
           (post hello) (json_response 200 JNull) eq_refl eq_refl eq_refl eq_refl).
Defined.

(** X3. A success response with a truthy text whose grounding attributions
    are truthy but cannot be mapped (not an array, or an array with a [null]
    entry) is answered with 500 "Server error: ...", not with the text. *)
Theorem unusable_attributions_server_error
  (host : Host) (req : Request) (r : Response) (result t : JsVal) :
  first_failure host req = None ->
  fetch host (outbound host req) = inr r ->
  ok r = true ->
  json r = inr result ->
  text_at_path result = Some t ->
  truthy t = true ->
  attributions_usable (candidate_of result) = false ->
  exists e,
    reply (snd (run host req))
    = Some (500, JObj [("error", JStr ("Server error: " ++ message e))])
    /\ console (snd (run host req)) = [("Server-side fetch error:", LogExn e)].
Proof.
  intros H Hf Hok Hj Ht Htr Hu. unfold text_at_path in Ht.
  rewrite path_lookup_chain in Ht. apply present_some in Ht.
  assert (Hr : nullish result = false).
  { destruct (nullish result) eqn:Hr; [|reflexivity].
    rewrite (chain_nullish result Hr) in Ht. subst t. discriminate Htr. }
  rewrite (run_reshaped host req r result H Hf Hok Hj Hr). cbv zeta.
  rewrite Ht, Htr. rewrite <- Ht in Htr.
  pose proof (extract_sources_usable host _ (chain_truthy_candidate result Htr)) as Hs.
  rewrite Hu in Hs. destruct Hs as [e ->]. exists e. split; reflexivity.
Qed.

Lemma unusable_attributions_server_error_witness :
  exists e,
    reply (snd (run (host_answering (Some "k")
                       (json_response 200
                          (answer (JStr "Paris") (grounded (JArr [JNull])))))
                  (post hello)))
    = Some (500, JObj [("error", JStr ("Server error: " ++ message e))])
    /\ console (snd (run (host_answering (Some "k")
                            (json_response 200
                               (answer (JStr "Paris") (grounded (JArr [JNull])))))
                       (post hello)))
       = [("Server-side fetch error:", LogExn e)].
Proof.
  exact (unusable_attributions_server_error
           (host_answering (Some "k")
              (json_response 200 (answer (JStr "Paris") (grounded (JArr [JNull])))))
           (post hello)
           (json_response 200 (answer (JStr "Paris") (grounded (JArr [JNull]))))
           (answer (JStr "Paris") (grounded (JArr [JNull])))
           (JStr "Paris") eq_refl eq_refl eq_refl eq_refl eq_refl eq_refl eq_refl).
Defined.

(** ** What the reply can be *)

(** X4. The promise of the handler rejects exactly for a POST to a
    configured server whose body is [null] or [undefined]; whenever it
    resolves, a reply has been sent. *)
Theorem fault_escapes_iff_absent_body (host : Host) (req : Request) :
  ((exists e, fst (run host req) = inl e)
   <-> method req = "POST"
       /\ env_truthy (GEMINI_API_KEY host) = true
       /\ nullish (body req) = true)
  /\ (fst (run host req) = inr tt -> reply (snd (run host req)) <> None).
Proof.
  split.
  - split.
    + destruct (run_outcome host req) as [c Hc Hb | Hc Hb | | | | | | | | ];
        simpl; intros [e0 He]; try discriminate He.
      destruct (first_failure_field host req Hc) as [Hm Hk].
      apply String.eqb_eq in Hm. auto.
    + intros (Hm & Hk & Hb). apply String.eqb_eq in Hm.
      rewrite (run_absent_body host req Hm Hk Hb). eexists. reflexivity.
  - destruct (run_outcome host req); simpl; intros Hres; discriminate.
Qed.

Lemma fault_escapes_iff_absent_body_witness :
  (exists e, fst (run (host_offline (Some "k")) (post JNull)) = inl e)
  /\ reply (snd (run (host_offline (Some "k")) (post (JObj [])))) <> None.
Proof.
  split.
  - apply (proj1 (fault_escapes_iff_absent_body (host_offline (Some "k")) (post JNull))).
    repeat split.
  - apply (proj2 (fault_escapes_iff_absent_body (host_offline (Some "k")) (post (JObj [])))).
    reflexivity.
Defined.

(** X5. A reply is never a mix: with status 200 its body is
    [{text, sources}] and has no [error] key; with any other status its body
    is [{error: message}] for a string [message]. *)
Theorem reply_is_answer_or_error (host : Host) (req : Request) (code : Z) (b : JsVal) :
  reply (snd (run host req)) = Some (code, b) ->
  (code = 200
   /\ has_key "error" b = false
   /\ exists t l, b = JObj [("text", t); ("sources", JArr l)])
  \/ (code <> 200 /\ exists msg, b = JObj [("error", JStr msg)]).
Proof.
  intros Hrep. pose proof (run_emits host req) as He. rewrite Hrep in He.
  inversion He as [ | c Hc | m Hm | code' raw Hcode Hc | | t l Ht Hl Hb ].
  - right. destruct c; injection Hc as <- <-;
      (split; [discriminate | eexists; reflexivity]).
  - right. split; [discriminate | eexists; reflexivity].
  - right. split; [|eexists; reflexivity].
    intros ->. discriminate Hcode.
  - right. split; [discriminate | eexists; reflexivity].
  - left. split; [reflexivity|]. split; [reflexivity|]. exists t, l. reflexivity.
Qed.

Lemma reply_is_answer_or_error_witness :
  exists msg,
    JObj [("error", JStr "Google API Error: rate limited")] = JObj [("error", JStr msg)].
Proof.
  destruct (reply_is_answer_or_error
              (host_answering (Some "k") (text_response 429 "rate limited"))
              (post hello) 429 _ eq_refl) as [[H429 _] | [_ Hmsg]].
  - discriminate H429.
  - exact Hmsg.
Defined.

(** X6. A 200 is sent only for a request that passed validation, to which
    the provider answered within 200-299 with a JSON body holding a truthy
    text at [candidates[0].content.parts[0].text] and attributions that can
    be mapped; the [text] of the reply is that value. *)
Theorem answer_only_from_provider_text (host : Host) (req : Request) (b : JsVal) :
  reply (snd (run host req)) = Some (200, b) ->
  first_failure host req = None
  /\ exists r result t l,
       fetch host (outbound host req) = inr r
       /\ ok r = true
       /\ json r = inr result
       /\ text_at_path result = Some t
       /\ truthy t = true
       /\ attributions_usable (candidate_of result) = true
       /\ b = JObj [("text", t); ("sources", JArr l)].
Proof.
  destruct (run_outcome host req)
    as [c Hc Hb | Hc Hb | e H Hf | r e H Hf Hok Ht | r raw H Hf Hok Ht
        | r e H Hf Hok Hj | r result H Hf Hok Hj Hr | r result H Hf Hok Hj Hr Hno
        | r result t e H Hf Hok Hj Ht Htr Hu | r result t l H Hf Hok Hj Ht Htr Hu Hl];
    simpl; intros Hrep; try discriminate Hrep.
  - destruct c; discriminate Hrep.
  - injection Hrep as Hs _. unfold ok in Hok. rewrite Hs in Hok. discriminate Hok.
  - injection Hrep as <-. split; [exact H|]. exists r, result, t, l. auto 10.
Qed.

Lemma answer_only_from_provider_text_witness :
  first_failure (host_answering (Some "k") (json_response 200 (answer (JStr "Paris") [])))
    (post hello) = None.
Proof.
  exact (proj1 (answer_only_from_provider_text
                  (host_answering (Some "k") (json_response 200 (answer (JStr "Paris") [])))
                  (post hello) _ eq_refl)).
Defined.

(** ** The outbound call and the log *)

(** X7. The provider is called once when the request passes validation and
    not at all otherwise; the call is a POST with a JSON content type to the
    model's [generateContent] URL with the configured, non-empty key as its
    [key] parameter. *)
Theorem provider_called_once_iff_accepted (host : Host) (req : Request) :
  (first_failure host req = None <-> calls (snd (run host req)) = [outbound host req])
  /\ (first_failure host req <> None <-> calls (snd (run host req)) = [])
  /\ forall rq, In rq (calls (snd (run host req))) ->
       exists k,
         GEMINI_API_KEY host = Some k
         /\ k <> ""
         /\ url rq
            = "https://generativelanguage.googleapis.com/v1beta/models/gemini-2.5-flash-preview-09-2025:generateContent?key="
              ++ k
         /\ init_method rq = "POST"
         /\ init_headers rq = [("Content-Type", "application/json")].
Proof.
  destruct (first_failure host req) as [c|] eqn:H.
  - destruct (run_rejected host req c H) as [Hc _]. rewrite Hc.
    split; [split; discriminate|]. split; [split; [reflexivity | discriminate]|].
    intros rq [].
  - rewrite (run_calls host req H).
    split; [split; reflexivity|]. split; [split; [congruence | discriminate]|].
    intros rq [<- | []].
    destruct (first_failure_none host req H) as (_ & Hk & _).
    unfold outbound, googleApiUrl. simpl.
    destruct (GEMINI_API_KEY host) as [k|]; simpl in Hk; [|discriminate].
    exists k. split; [reflexivity|]. split; [|auto].
    apply negb_true_iff in Hk. apply String.eqb_neq in Hk. exact Hk.
Qed.

Lemma provider_called_once_iff_accepted_witness :
  calls (snd (run (host_offline (Some "k")) (post hello)))
  = [outbound (host_offline (Some "k")) (post hello)]
  /\ calls (snd (run (host_offline (Some "k")) (post (JObj [])))) = [].
Proof.
  split.
  - apply (proj1 (provider_called_once_iff_accepted (host_offline (Some "k")) (post hello))).
    reflexivity.
  - apply (proj1 (proj2 (provider_called_once_iff_accepted
                           (host_offline (Some "k")) (post (JObj []))))).
    discriminate.
Defined.

(** X8. An invocation writes at most one [console.error] line, and none
    exactly when the provider was not called or the reply is the 200 answer:
    every failure after the call is logged, rejections of the request are
    not. *)
Theorem logged_iff_failure_after_call (host : Host) (req : Request) :
  (List.length (console (snd (run host req))) <= 1)%nat
  /\ (console (snd (run host req)) = []
      <-> calls (snd (run host req)) = []
          \/ exists b, reply (snd (run host req)) = Some (200, b)).
Proof.
  destruct (run_outcome host req)
    as [c Hc Hb | Hc Hb | e H Hf | r e H Hf Hok Ht | r raw H Hf Hok Ht
        | r e H Hf Hok Hj | r result H Hf Hok Hj Hr | r result H Hf Hok Hj Hr Hno
        | r result t e H Hf Hok Hj Ht Htr Hu | r result t l H Hf Hok Hj Ht Htr Hu Hl];
    simpl; (split; [lia|]).
  1, 2: split; auto.
  8: split; [intros _; right; eexists; reflexivity | reflexivity].
  all: split; [discriminate|]; intros [Hcalls | [b Hb]]; try discriminate.
  injection Hb as Hs _. unfold ok in Hok. rewrite Hs in Hok. discriminate Hok.
Qed.

Lemma logged_iff_failure_after_call_witness :
  console (snd (run (host_answering (Some "k") (json_response 200 (answer (JStr "Paris") [])))
                  (post hello))) = [].
Proof.
  apply (proj2 (logged_iff_failure_after_call
                  (host_answering (Some "k") (json_response 200 (answer (JStr "Paris") [])))
                  (post hello))).
  right. eexists. reflexivity.
Defined.

(** ** What the handler reads *)

(** X9. Of a request body the handler reads [userQuery], [systemPrompt] and
    [useGrounding] and nothing else: two requests with the same method whose
    bodies agree on these three fields run alike. *)
Theorem only_named_fields_read (host : Host) (req1 req2 : Request) :
  method req1 = method req2 ->
  nullish (body req1) = false ->
  nullish (body req2) = false ->
  (forall name, In name ["userQuery"; "systemPrompt"; "useGrounding"] ->
     prop (body req1) (KName name) = prop (body req2) (KName name)) ->
  run host req1 = run host req2.
Proof.
  intros Hm H1 H2 Hp. unfold run, handler. rewrite Hm.
  destruct (negb (method req2 =? "POST")%string); [reflexivity|].
  destruct (negb (env_truthy (GEMINI_API_KEY host))); [reflexivity|].
  unfold bind, lift, destructure. rewrite H1, H2.
  rewrite (Hp "userQuery"), (Hp "systemPrompt"), (Hp "useGrounding") by (simpl; auto).
  reflexivity.
Qed.

Lemma only_named_fields_read_witness :
  run (host_offline (Some "k")) (post hello)
  = run (host_offline (Some "k"))
      (post (JObj [("temperature", JNum (Finite 1 0)); ("userQuery", JStr "hello")])).
Proof.
  apply only_named_fields_read; try reflexivity.
  intros name [<- | [<- | [<- | []]]]; reflexivity.
Defined.

(** X10. A POST to a configured server whose body is present but has no
    [userQuery] of its own (an object without the key, an array, a string, a
    number, a boolean) is answered with 400 "userQuery is required.", without
    a call and without a log line. *)
Theorem body_without_userQuery_rejected (host : Host) (req : Request) :
  method req = "POST" ->
  env_truthy (GEMINI_API_KEY host) = true ->
  nullish (body req) = false ->
  has_key "userQuery" (body req) = false ->
  run host req
  = (inr tt,
     {| reply := Some (400, JObj [("error", JStr "userQuery is required.")]);
        calls := [];
        console := [] |}).
Proof.
  intros Hm Hk Hb Hq. apply String.eqb_eq in Hm.
  assert (Hu : prop (body req) (KName "userQuery") = JUndefined).
  { destruct (body req) as [| |b|n|s|l|fields]; simpl in *; try reflexivity.
    destruct (lookup "userQuery" fields); [discriminate | reflexivity]. }
  assert (H : first_failure host req = Some RequiredFieldCheck).
  { unfold first_failure, userQuery_missing. rewrite Hm, Hk, Hb, Hu. reflexivity. }
  exact (proj2 (run_rejected host req _ H) (or_introl Hb)).
Qed.

Lemma body_without_userQuery_rejected_witness :
  reply (snd (run (host_offline (Some "k")) (post (JStr "userQuery=hello"))))
  = Some (400, JObj [("error", JStr "userQuery is required.")]).
Proof.
  rewrite (body_without_userQuery_rejected (host_offline (Some "k"))
             (post (JStr "userQuery=hello")) eq_refl eq_refl eq_refl eq_refl).
  reflexivity.
Defined.

(** X11. Of the provider's body only [candidates[0]] is read: two bodies
    other than [null] with the same first candidate are reshaped into the
    same reply. *)
Theorem only_first_candidate_read (host : Host) (result1 result2 : JsVal) (w : World) :
  nullish result1 = false ->
  nullish result2 = false ->
  candidate_of result1 = candidate_of result2 ->
  fst (reshape host result1 w) = fst (reshape host result2 w)
  /\ reply (snd (reshape host result1 w)) = reply (snd (reshape host result2 w)).
Proof.
  intros H1 H2 Hc.
  rewrite (reshape_chain host result1 w H1), (reshape_chain host result2 w H2). cbv zeta.
  assert (Ht : fold_left opt_get text_path result1 = fold_left opt_get text_path result2).
  { unfold text_path. simpl fold_left. fold (candidate_of result1) (candidate_of result2).
    rewrite Hc. reflexivity. }
  rewrite Ht, Hc.
  destruct (truthy (fold_left opt_get text_path result2)); [|split; reflexivity].
  destruct (extract_sources host (candidate_of result2)); split; reflexivity.
Qed.

Lemma only_first_candidate_read_witness :
  let first := JObj [("content", JObj [("parts", JArr [JObj [("text", JStr "Paris")]])])] in
  let second := JObj [("content", JObj [("parts", JArr [JObj [("text", JStr "Lyon")]])])] in
  reply (snd (reshape (host_offline (Some "k"))
                (JObj [("candidates", JArr [first; second])]) initial_world))
  = reply (snd (reshape (host_offline (Some "k"))
                  (JObj [("candidates", JArr [first])]) initial_world)).
Proof.
  intros first second.
  exact (proj2 (only_first_candidate_read (host_offline (Some "k"))
                  (JObj [("candidates", JArr [first; second])])
                  (JObj [("candidates", JArr [first])])
                  initial_world eq_refl eq_refl eq_refl)).
Defined.
